(** * rustify: Option and Result containers with per-instance combinators

    A shallow embedding of [src/lib/option.ts] and of the Result source file
    (its sibling, which exports [Ok], [Err] and [resultFactory]).

    The library is dynamically typed at run time, so the embedding keeps one
    universe [val] of JavaScript values.  An Option or a Result is a plain
    object: a finite map from property names to values, holding the tag under
    ["type"], the payload under ["value"] or ["error"], and one property per
    combinator whose value is a reference to the library function of that
    name.  Parameters are typed the way the TypeScript signatures type them:
    a receiver or an [other] operand is an object, a callback is a function
    that may act on the world and may throw, a message is a string. *)

From Stdlib Require Import ZArith String List Bool.
From stdpp Require Import base strings gmap pretty.

Local Open Scope string_scope.
Local Open Scope Z_scope.

(** ** Values *)

(** A reference to a function declared by the library: the file that declares
    it and its identifier. *)
Inductive lib_fn : Type :=
| OptionFn (name : string)
| ResultFn (name : string).

(** JavaScript values.  Numbers are the integer-valued ones; strings are
    sequences of one-byte characters; [VError name message] is an instance of
    a built-in error class ([new Error(message)] has name ["Error"]).
    Objects are compared by their properties, not by identity. *)
#[warnings="-register-all"]
Inductive val : Type :=
| VUndefined
| VNull
| VBool (b : bool)
| VNum (z : Z)
| VStr (s : string)
| VArr (items : list val)
| VObj (props : gmap string val)
| VFn (f : lib_fn)
| VError (name message : string).

Abbreviation obj := (gmap string val).

(** [o.k]: reading a property that is absent gives [undefined]. *)
Definition prop (o : obj) (k : string) : val := default VUndefined (o !! k).

(** [{ ...target, ...source }]: the properties of [source] win. *)
Definition assign (target source : obj) : obj := source ∪ target.

(** [v == 'lit'] and [v === 'lit'] for a string literal, on a tag: the tag is
    declared as a string, on which the two comparisons coincide. *)
Definition eq_str (v : val) (lit : string) : bool :=
  match v with
  | VStr s => String.eqb s lit
  | _ => false
  end.

(** [value === undefined || value === null] *)
Definition is_nullish (value : val) : bool :=
  match value with
  | VUndefined | VNull => true
  | _ => false
  end.

(** ** Effects

    Calls run in a world made of the console (the argument lists passed to
    [console.warn], oldest first) and of whatever state the caller's callbacks
    keep.  A call either returns or throws a value; what it did to the world
    before throwing stays done. *)

Record world : Type := World {
  console : list (list val);
  heap : list val
}.

Inductive outcome (A : Type) : Type :=
| Return (a : A)
| Throw (e : val).
Arguments Return {A} a.
Arguments Throw {A} e.

Definition M (A : Type) : Type := world -> outcome A * world.

Definition ret {A} (a : A) : M A := fun w => (Return a, w).

Definition throw {A} (e : val) : M A := fun w => (Throw e, w).

Definition bind {A B} (m : M A) (k : A -> M B) : M B :=
  fun w =>
    match m w with
    | (Return a, w') => k a w'
    | (Throw e, w') => (Throw e, w')
    end.

Notation "'let*' x ':=' m 'in' k" := (bind m (fun x => k))
  (at level 10, x name, m at level 100, k at level 200).
Notation "m ';;' k" := (bind m (fun _ => k))
  (at level 100, k at level 200, right associativity).

Definition console_warn (args : list val) : M unit :=
  fun w => (Return tt, World (console w ++ [args]) (heap w)).

(** [if (c) s;] with no else branch. *)
Definition when (c : bool) (s : M unit) : M unit := if c then s else ret tt.

(** A computation that returns in every world: it never throws. *)
Definition returns {A} (m : M A) : Prop :=
  forall w, exists a w', m w = (Return a, w').

(** [new Error(message)] and the engine's [TypeError]. *)
Definition Error (message : string) : val := VError "Error" message.
Definition TypeError (message : string) : val := VError "TypeError" message.

(** The message a caught failure shows: the [message] of an error object, or
    the thrown string itself. *)
Definition failure_message (e : val) : option string :=
  match e with
  | VError _ message => Some message
  | VStr s => Some s
  | _ => None
  end.


(** ** The two method tables and the four constructors

    [option.ts] imports [Ok] and [Err], the Result file imports [Some] and
    [None]; the constructors only need the tables, so they come first. *)

Definition option_methods : list string :=
  [ "some"; "none"; "unwrap"; "unwrapOr"; "unwrapOrGet"; "expect"; "match";
    "map"; "mapOr"; "flatMap"; "mapOrElse"; "inspect"; "ok"; "okOr";
    "okOrElse"; "and"; "or"; "orElse"; "xor"; "filter"; "zip"; "unzip" ].

Definition result_methods : list string :=
  [ "ok"; "err"; "get"; "fail"; "unwrap"; "unwrapOr"; "unwrapOrGet";
    "expect" ].

(** [{ some, none, unwrap, ... }]: each property holds the function of its
    own name. *)
Definition createBaseOption : obj :=
  list_to_map ((fun n => (n, VFn (OptionFn n))) <$> option_methods).

Definition createBaseResult : obj :=
  list_to_map ((fun n => (n, VFn (ResultFn n))) <$> result_methods).

(** [{ type: 'some', value, ...createBaseOption() }] *)
Definition some_object (value : val) : obj :=
  assign {[ "type" := VStr "some"; "value" := value ]} createBaseOption.

Definition Some_ (value : val) : M obj :=
  when (is_nullish value)
    (console_warn [VStr "Creating an option with an undefined value"; value]) ;;
  ret (some_object value).

(** [None()] takes no argument and does nothing but build the object:
    [{ type: 'none', ...createBaseOption() }]. *)
Definition None_ : obj :=
  assign {[ "type" := VStr "none" ]} createBaseOption.

(** [Ok()] is [Ok(undefined)], [Err()] is [Err(undefined)]. *)
Definition Ok (value : val) : obj :=
  assign {[ "type" := VStr "ok"; "value" := value ]} createBaseResult.

Definition Err (error : val) : obj :=
  assign {[ "type" := VStr "err"; "error" := error ]} createBaseResult.

(** ** option.ts *)

Module Opt.

(** [Maybe(value)] *)
Definition Maybe (value : val) : M obj :=
  if is_nullish value then ret None_ else Some_ value.

Definition some (this : obj) : bool := eq_str (prop this "type") "some".

Definition none (this : obj) : bool := eq_str (prop this "type") "none".

Definition unwrap (this : obj) : M val :=
  if eq_str (prop this "type") "some" then ret (prop this "value")
  else throw (Error "Called `unwrap()` on a `None` `Option` value").

Definition unwrapOr (this : obj) (def : val) : val :=
  if eq_str (prop this "type") "some" then prop this "value" else def.

Definition unwrapOrGet (this : obj) (supplier : M val) : M val :=
  if eq_str (prop this "type") "some" then ret (prop this "value")
  else supplier.

(** [throw msg]: the thrown value is the string itself. *)
Definition expect (this : obj) (msg : string) : M val :=
  if eq_str (prop this "type") "some" then ret (prop this "value")
  else throw (VStr msg).

(** [{ some: (value) => R; none: () => R }] *)
Record matcher : Type := Matcher {
  matcher_some : val -> M val;
  matcher_none : M val
}.

Definition match_ (this : obj) (matcher : matcher) : M val :=
  if eq_str (prop this "type") "some"
  then matcher_some matcher (prop this "value")
  else matcher_none matcher.

Definition map (this : obj) (mapper : val -> M val) : M obj :=
  if eq_str (prop this "type") "some"
  then let* r := mapper (prop this "value") in Some_ r
  else ret None_.

Definition mapOr (this : obj) (mapper : val -> M val) (value : val) : M obj :=
  if eq_str (prop this "type") "some"
  then let* r := mapper (prop this "value") in Some_ r
  else Some_ value.

Definition flatMap (this : obj) (mapper : val -> M obj) : M obj :=
  if eq_str (prop this "type") "some" then mapper (prop this "value")
  else ret None_.

Definition mapOrElse (this : obj) (mapper : val -> M val) (supplier : M val)
  : M obj :=
  if eq_str (prop this "type") "some"
  then let* r := mapper (prop this "value") in Some_ r
  else let* r := supplier in Some_ r.

Definition inspect (this : obj) (callback : val -> M unit) : M obj :=
  when (eq_str (prop this "type") "some") (callback (prop this "value")) ;;
  ret this.

(** [Err(undefined as void)] on the empty option. *)
Definition ok (this : obj) : obj :=
  if eq_str (prop this "type") "some" then Ok (prop this "value")
  else Err VUndefined.

Definition okOr (this : obj) (error : val) : obj :=
  if eq_str (prop this "type") "some" then Ok (prop this "value")
  else Err error.

Definition okOrElse (this : obj) (error : M val) : M obj :=
  if eq_str (prop this "type") "some" then ret (Ok (prop this "value"))
  else let* e := error in ret (Err e).

Definition and (this other : obj) : obj :=
  if eq_str (prop this "type") "some" then other else None_.

Definition or (this other : obj) : obj :=
  if eq_str (prop this "type") "some" then this else other.

Definition orElse (this : obj) (other : M obj) : M obj :=
  if eq_str (prop this "type") "some" then ret this else other.

Definition xor (this other : obj) : obj :=
  if eq_str (prop this "type") "some" && eq_str (prop other "type") "none"
  then this
  else if eq_str (prop this "type") "none" && eq_str (prop other "type") "some"
  then other
  else None_.

(** [&&] does not call the predicate on the empty option. *)
Definition filter (this : obj) (predicate : val -> M bool) : M obj :=
  let* keep :=
    (if eq_str (prop this "type") "some" then predicate (prop this "value")
     else ret false) in
  if keep then ret this else ret None_.

Definition zip (this other : obj) : M obj :=
  if eq_str (prop this "type") "some" && eq_str (prop other "type") "some"
  then Some_ (VArr [prop this "value"; prop other "value"])
  else ret None_.

(** The values array destructuring accepts. *)
Definition iterable (v : val) : bool :=
  match v with
  | VArr _ | VStr _ => true
  | _ => false
  end.

(** [const [valueT, valueU] = v]: the first two items of an iterable, a
    missing one being [undefined].  Arrays and strings are the iterable
    values; on anything else the engine throws a [TypeError], whose text is
    the engine's own. *)
Definition destructure2 (v : val) : M (val * val) :=
  match v with
  | VArr items => ret (nth 0 items VUndefined, nth 1 items VUndefined)
  | VStr s =>
      let chars := (fun c => VStr (String c EmptyString)) <$> list_ascii_of_string s in
      ret (nth 0 chars VUndefined, nth 1 chars VUndefined)
  | _ => throw (TypeError "this.value is not iterable")
  end.

Definition unzip (this : obj) : M (obj * obj) :=
  if eq_str (prop this "type") "some"
  then
    let* pair := destructure2 (prop this "value") in
    let* t := Some_ (fst pair) in
    let* u := Some_ (snd pair) in
    ret (t, u)
  else ret (None_, None_).

(** [optionFactory(option)]: [{ ...option, ...createBaseOption() }] *)
Definition optionFactory (option : obj) : obj :=
  assign (assign ∅ option) createBaseOption.

(** A call of one combinator: which one, and its arguments. *)
Inductive call : Type :=
| call_some
| call_none
| call_unwrap
| call_unwrapOr (def : val)
| call_unwrapOrGet (supplier : M val)
| call_expect (msg : string)
| call_match (matcher : matcher)
| call_map (mapper : val -> M val)
| call_mapOr (mapper : val -> M val) (value : val)
| call_flatMap (mapper : val -> M obj)
| call_mapOrElse (mapper : val -> M val) (supplier : M val)
| call_inspect (callback : val -> M unit)
| call_ok
| call_okOr (error : val)
| call_okOrElse (error : M val)
| call_and (other : obj)
| call_or (other : obj)
| call_orElse (other : M obj)
| call_xor (other : obj)
| call_filter (predicate : val -> M bool)
| call_zip (other : obj)
| call_unzip.

(** The property under which the called function is attached. *)
Definition fn_name (c : call) : string :=
  match c with
  | call_some => "some"
  | call_none => "none"
  | call_unwrap => "unwrap"
  | call_unwrapOr _ => "unwrapOr"
  | call_unwrapOrGet _ => "unwrapOrGet"
  | call_expect _ => "expect"
  | call_match _ => "match"
  | call_map _ => "map"
  | call_mapOr _ _ => "mapOr"
  | call_flatMap _ => "flatMap"
  | call_mapOrElse _ _ => "mapOrElse"
  | call_inspect _ => "inspect"
  | call_ok => "ok"
  | call_okOr _ => "okOr"
  | call_okOrElse _ => "okOrElse"
  | call_and _ => "and"
  | call_or _ => "or"
  | call_orElse _ => "orElse"
  | call_xor _ => "xor"
  | call_filter _ => "filter"
  | call_zip _ => "zip"
  | call_unzip => "unzip"
  end.

(** Running the called function with [this] bound to the receiver; what it
    returns is seen as a value. *)
Definition apply (c : call) (this : obj) : M val :=
  match c with
  | call_some => ret (VBool (some this))
  | call_none => ret (VBool (none this))
  | call_unwrap => unwrap this
  | call_unwrapOr def => ret (unwrapOr this def)
  | call_unwrapOrGet supplier => unwrapOrGet this supplier
  | call_expect msg => expect this msg
  | call_match matcher => match_ this matcher
  | call_map mapper => let* o := map this mapper in ret (VObj o)
  | call_mapOr mapper value => let* o := mapOr this mapper value in ret (VObj o)
  | call_flatMap mapper => let* o := flatMap this mapper in ret (VObj o)
  | call_mapOrElse mapper supplier =>
      let* o := mapOrElse this mapper supplier in ret (VObj o)
  | call_inspect callback => let* o := inspect this callback in ret (VObj o)
  | call_ok => ret (VObj (ok this))
  | call_okOr error => ret (VObj (okOr this error))
  | call_okOrElse error => let* o := okOrElse this error in ret (VObj o)
  | call_and other => ret (VObj (and this other))
  | call_or other => ret (VObj (or this other))
  | call_orElse other => let* o := orElse this other in ret (VObj o)
  | call_xor other => ret (VObj (xor this other))
  | call_filter predicate => let* o := filter this predicate in ret (VObj o)
  | call_zip other => let* o := zip this other in ret (VObj o)
  | call_unzip =>
      let* p := unzip this in ret (VArr [VObj (fst p); VObj (snd p)])
  end.

(** The two operations documented as failing on the empty option. *)
Definition fallible (c : call) : bool :=
  match c with
  | call_unwrap | call_expect _ => true
  | _ => false
  end.

(** Every callback passed with the call returns, whatever it is given. *)
Definition callbacks_return (c : call) : Prop :=
  match c with
  | call_unwrapOrGet supplier => returns supplier
  | call_match matcher =>
      (forall v, returns (matcher_some matcher v)) /\ returns (matcher_none matcher)
  | call_map mapper => forall v, returns (mapper v)
  | call_mapOr mapper _ => forall v, returns (mapper v)
  | call_flatMap mapper => forall v, returns (mapper v)
  | call_mapOrElse mapper supplier =>
      (forall v, returns (mapper v)) /\ returns supplier
  | call_inspect callback => forall v, returns (callback v)
  | call_okOrElse error => returns error
  | call_orElse other => returns other
  | call_filter predicate => forall v, returns (predicate v)
  | _ => True
  end.

(** What [unzip] declares of its receiver ([this: Option<[T, U]>]): a
    payload that can be destructured. *)
Definition unzip_ready (c : call) (this : obj) : Prop :=
  match c with
  | call_unzip => some this = true -> iterable (prop this "value") = true
  | _ => True
  end.

(** An Option value: the tag is one of the two. *)
Definition is_option (x : obj) : Prop :=
  prop x "type" = VStr "some" \/ prop x "type" = VStr "none".

End Opt.

(** ** Textual form of a value

    The text the built-in conversions give a value.  The text of a function is
    its source text, which the engine keeps and the embedding takes as given;
    an object prints as ["[object Object]"]; a number prints its digits.  This
    is what string concatenation makes of the values called [plain] below; on
    the others the conversion is [Res.to_text]. *)

Section Text.

Variable fn_source : lib_fn -> string.

Fixpoint toString (v : val) : string :=
  match v with
  | VUndefined => "undefined"
  | VNull => "null"
  | VBool b => if b then "true" else "false"
  | VNum z => pretty z
  | VStr s => s
  | VArr items =>
      (fix join (l : list val) : string :=
         match l with
         | [] => ""
         | x :: rest =>
             (match x with
              | VUndefined | VNull => ""
              | _ => toString x
              end)
             +:+ (match rest with
                  | [] => ""
                  | _ => "," +:+ join rest
                  end)
         end) items
  | VObj _ => "[object Object]"
  | VFn f => fn_source f
  | VError name message =>
      if String.eqb name "" then message
      else if String.eqb message "" then name
      else name +:+ ": " +:+ message
  end.

End Text.

(** The values that are not objects. *)
Definition primitive (v : val) : bool :=
  match v with
  | VUndefined | VNull | VBool _ | VNum _ | VStr _ => true
  | _ => false
  end.


(** ** The Result file *)

Module Res.

Section Host.

Variable fn_source : lib_fn -> string.

Definition ok (this : obj) : bool := eq_str (prop this "type") "ok".

Definition err (this : obj) : bool := eq_str (prop this "type") "err".

Definition get (this : obj) : M obj :=
  if eq_str (prop this "type") "ok" then Some_ (prop this "value")
  else ret None_.

Definition fail (this : obj) : M obj :=
  if eq_str (prop this "type") "err" then Some_ (prop this "error")
  else ret None_.

Definition unwrapOr (this : obj) (def : val) : val :=
  if eq_str (prop this "type") "ok" then prop this "value" else def.

Definition unwrapOrGet (this : obj) (supplier : M val) : M val :=
  if eq_str (prop this "type") "ok" then ret (prop this "value")
  else supplier.

Definition expect (this : obj) (msg : string) : M val :=
  if eq_str (prop this "type") "ok" then ret (prop this "value")
  else throw (VStr msg).

(** *** What ['...' + this.error] makes of the error

    Concatenation converts an object through the object's own [valueOf] and
    [toString] when it has them, and these may be any value: a function of
    the library, which is then called on the object with no argument, or
    something that cannot be called.  The conversion may therefore return a
    text, throw what the called function throws, or throw the engine's
    [TypeError] when nothing gives a primitive value. *)

(** Which of the two is asked first: [valueOf] by [+], [toString] when the
    items of an array are joined. *)
Inductive hint : Type := HDefault | HString.

(** Calling a parameter that was not passed.  The text of an error the engine
    raises is the engine's own; the embedding fixes one. *)
Definition not_passed {A} : M A :=
  throw (TypeError "undefined is not a function").

(** Reading a property of a parameter that was not passed. *)
Definition read_of_undefined {A} : M A :=
  throw (TypeError "Cannot read properties of undefined").

(** [f.call(this)] for each function of option.ts: every parameter is
    [undefined]. *)
Definition option_call0 : gmap string (obj -> M val) :=
  list_to_map
    [ ("some", fun this => ret (VBool (Opt.some this)));
      ("none", fun this => ret (VBool (Opt.none this)));
      ("unwrap", fun this => Opt.unwrap this);
      ("unwrapOr", fun this => ret (Opt.unwrapOr this VUndefined));
      ("unwrapOrGet", fun this => Opt.unwrapOrGet this not_passed);
      ("expect", fun this =>
         if eq_str (prop this "type") "some" then ret (prop this "value")
         else throw VUndefined);
      ("match", fun this => read_of_undefined);
      ("map", fun this =>
         let* o := Opt.map this (fun _ => not_passed) in ret (VObj o));
      ("mapOr", fun this =>
         let* o := Opt.mapOr this (fun _ => not_passed) VUndefined in
         ret (VObj o));
      ("flatMap", fun this =>
         let* o := Opt.flatMap this (fun _ => not_passed) in ret (VObj o));
      ("mapOrElse", fun this =>
         let* o := Opt.mapOrElse this (fun _ => not_passed) not_passed in
         ret (VObj o));
      ("inspect", fun this =>
         let* o := Opt.inspect this (fun _ => not_passed) in ret (VObj o));
      ("ok", fun this => ret (VObj (Opt.ok this)));
      ("okOr", fun this => ret (VObj (Opt.okOr this VUndefined)));
      ("okOrElse", fun this =>
         let* o := Opt.okOrElse this not_passed in ret (VObj o));
      ("and", fun this =>
         ret (if eq_str (prop this "type") "some" then VUndefined
              else VObj None_));
      ("or", fun this =>
         ret (if eq_str (prop this "type") "some" then VObj this
              else VUndefined));
      ("orElse", fun this =>
         let* o := Opt.orElse this not_passed in ret (VObj o));
      ("xor", fun this =>
         if eq_str (prop this "type") "some" then read_of_undefined
         else if eq_str (prop this "type") "none" then read_of_undefined
         else ret (VObj None_));
      ("filter", fun this =>
         let* o := Opt.filter this (fun _ => not_passed) in ret (VObj o));
      ("zip", fun this =>
         if eq_str (prop this "type") "some" then read_of_undefined
         else ret (VObj None_));
      ("unzip", fun this =>
         let* p := Opt.unzip this in ret (VArr [VObj (fst p); VObj (snd p)]))
    ].

(** [unwrap], given what the conversion makes of each property. *)
Definition unwrap_with (texts : gmap string (M string)) (this : obj) : M val :=
  if eq_str (prop this "type") "ok" then ret (prop this "value")
  else
    let* text := default (ret "undefined") (texts !! "error") in
    throw (Error ("Called `unwrap()` on an `Err` `Result` value with: "
                  +:+ text)).

(** The same for the functions of the Result file. *)
Definition result_call0 (texts : gmap string (M string))
  : gmap string (obj -> M val) :=
  list_to_map
    [ ("ok", fun this => ret (VBool (ok this)));
      ("err", fun this => ret (VBool (err this)));
      ("get", fun this => let* o := get this in ret (VObj o));
      ("fail", fun this => let* o := fail this in ret (VObj o));
      ("unwrap", fun this => unwrap_with texts this);
      ("unwrapOr", fun this => ret (unwrapOr this VUndefined));
      ("unwrapOrGet", fun this => unwrapOrGet this not_passed);
      ("expect", fun this =>
         if eq_str (prop this "type") "ok" then ret (prop this "value")
         else throw VUndefined)
    ].

(** The function a value is, when it is one the library declares. *)
Definition callable (texts : gmap string (M string)) (v : val)
  : option (obj -> M val) :=
  match v with
  | VFn (OptionFn name) => option_call0 !! name
  | VFn (ResultFn name) => result_call0 texts !! name
  | _ => None
  end.

(** One step of the conversion: the object's [name] is called when it can
    be, and its result taken when it is not an object; otherwise [next].
    What an object without a [toString] of its own inherits prints
    ["[object Object]"]; the [valueOf] it inherits returns the object. *)
Definition try_method (texts : gmap string (M string)) (name : string)
  (this : obj) (next : M string) : M string :=
  match this !! name with
  | None => if String.eqb name "toString" then ret "[object Object]" else next
  | Some method =>
      match callable texts method with
      | Some f =>
          let* r := f this in
          if primitive r then ret (toString fn_source r) else next
      | None => next
      end
  end.

Definition convert_object (texts : gmap string (M string)) (h : hint)
  (this : obj) : M string :=
  let no_primitive :=
    throw (TypeError "Cannot convert object to primitive value") in
  match h with
  | HDefault =>
      try_method texts "valueOf" this
        (try_method texts "toString" this no_primitive)
  | HString =>
      try_method texts "toString" this
        (try_method texts "valueOf" this no_primitive)
  end.

(** [items.join(",")], each item converted in turn; [undefined] and [null]
    give the empty text. *)
Fixpoint join_with (convert : val -> M string) (items : list val) : M string :=
  match items with
  | [] => ret ""
  | x :: rest =>
      let* t := (match x with
                 | VUndefined | VNull => ret ""
                 | _ => convert x
                 end) in
      let* r := (match rest with
                 | [] => ret ""
                 | _ => let* j := join_with convert rest in ret ("," +:+ j)
                 end) in
      ret (t +:+ r)
  end.

Fixpoint to_text (h : hint) (v : val) : M string :=
  match v with
  | VArr items => join_with (to_text HString) items
  | VObj m => convert_object (to_text HDefault <$> m) h m
  | _ => ret (toString fn_source v)
  end.

Definition unwrap (this : obj) : M val :=
  if eq_str (prop this "type") "ok" then ret (prop this "value")
  else
    let* text := to_text HDefault (prop this "error") in
    throw (Error ("Called `unwrap()` on an `Err` `Result` value with: "
                  +:+ text)).

(** [resultFactory(result)]: [{ ...result, ...createBaseResult() }] *)
Definition resultFactory (result : obj) : obj :=
  assign (assign ∅ result) createBaseResult.

Inductive call : Type :=
| call_ok
| call_err
| call_get
| call_fail
| call_unwrap
| call_unwrapOr (def : val)
| call_unwrapOrGet (supplier : M val)
| call_expect (msg : string).

Definition fn_name (c : call) : string :=
  match c with
  | call_ok => "ok"
  | call_err => "err"
  | call_get => "get"
  | call_fail => "fail"
  | call_unwrap => "unwrap"
  | call_unwrapOr _ => "unwrapOr"
  | call_unwrapOrGet _ => "unwrapOrGet"
  | call_expect _ => "expect"
  end.

Definition apply (c : call) (this : obj) : M val :=
  match c with
  | call_ok => ret (VBool (ok this))
  | call_err => ret (VBool (err this))
  | call_get => let* o := get this in ret (VObj o)
  | call_fail => let* o := fail this in ret (VObj o)
  | call_unwrap => unwrap this
  | call_unwrapOr def => ret (unwrapOr this def)
  | call_unwrapOrGet supplier => unwrapOrGet this supplier
  | call_expect msg => expect this msg
  end.

Definition fallible (c : call) : bool :=
  match c with
  | call_unwrap | call_expect _ => true
  | _ => false
  end.

Definition callbacks_return (c : call) : Prop :=
  match c with
  | call_unwrapOrGet supplier => returns supplier
  | _ => True
  end.

(** A Result value: the tag is one of the two. *)
Definition is_result (x : obj) : Prop :=
  prop x "type" = VStr "ok" \/ prop x "type" = VStr "err".

End Host.

End Res.

(** ** Running the embedding on the library's own test cases *)

Definition w0 : world := World [] [].

Definition src0 (f : lib_fn) : string :=
  match f with OptionFn n | ResultFn n => "function " +:+ n +:+ "() { ... }" end.

Definition quiet {A} (m : M A) : outcome A := fst (m w0).

(** A supplier that records each of its runs on the heap. *)
Definition counting_supplier (result : val) : M val :=
  fun w => (Return result, World (console w) (VStr "supplier" :: heap w)).

(** A callback that records what it is given on the heap. *)
Definition recording_callback (v : val) : M unit :=
  fun w => (Return tt, World (console w) (v :: heap w)).

(** The calls that take no callback. *)
Definition callback_free (c : Opt.call) : bool :=
  match c with
  | Opt.call_some | Opt.call_none | Opt.call_unwrap | Opt.call_unwrapOr _
  | Opt.call_expect _ | Opt.call_ok | Opt.call_okOr _ | Opt.call_and _
  | Opt.call_or _ | Opt.call_xor _ | Opt.call_zip _ | Opt.call_unzip => true
  | _ => false
  end.

(** The one line the library writes: the warning of [Some] about a payload
    that is [undefined] or [null]. *)
Definition is_warning (line : list val) : Prop :=
  exists v, is_nullish v = true
            /\ line = [VStr "Creating an option with an undefined value"; v].

(** A computation that leaves the heap alone and adds nothing to the console
    but such warnings. *)
Definition only_warns {A} (m : M A) : Prop :=
  forall w,
    heap (snd (m w)) = heap w
    /\ exists extra,
         console (snd (m w)) = (console w ++ extra)%list /\ Forall is_warning extra.

Example run_none_unwrap :
  quiet (Opt.unwrap None_)
  = Throw (Error "Called `unwrap()` on a `None` `Option` value").
Proof. reflexivity. Qed.

Example run_map_length :
  quiet (let* o := Some_ (VStr "ABC") in
         let* m := Opt.map o (fun v =>
                     ret (match v with
                          | VStr s => VNum (Z.of_nat (String.length s))
                          | _ => VUndefined
                          end)) in
         Opt.unwrap m)
  = Return (VNum 3).
Proof. reflexivity. Qed.

Example run_or_match :
  quiet (let* second := Some_ (VNum 3) in
         Opt.match_ (Opt.or None_ second)
           (Opt.Matcher
              (fun v => ret (match v with VNum z => VNum (z + 2) | _ => v end))
              (ret (VNum 0))))
  = Return (VNum 5).
Proof. reflexivity. Qed.

Example run_zip :
  quiet (let* a := Some_ (VNum 5) in
         let* b := Some_ (VStr "hello") in
         Opt.zip a b)
  = Return (some_object (VArr [VNum 5; VStr "hello"])).
Proof. reflexivity. Qed.

Example run_unzip :
  quiet (Opt.unzip (some_object (VArr [VNum 5; VStr "hello"])))
  = Return (some_object (VNum 5), some_object (VStr "hello")).
Proof. reflexivity. Qed.

Example run_err_unwrap :
  quiet (Res.unwrap src0 (Err (VStr "boom")))
  = Throw (Error "Called `unwrap()` on an `Err` `Result` value with: boom").
Proof. reflexivity. Qed.

(** ** Reading the objects the constructors build *)


Lemma Some_run (v : val) (w : world) :
  Some_ v w
  = (Return (some_object v),
     if is_nullish v
     then World (console w ++
                   [[VStr "Creating an option with an undefined value"; v]])
                (heap w)
     else w).
Proof. unfold Some_, bind, when. by destruct (is_nullish v). Qed.

Lemma Some_quiet (v : val) (w : world) :
  is_nullish v = false -> Some_ v w = (Return (some_object v), w).
Proof. intros H. by rewrite Some_run, H. Qed.

Lemma some_object_type (v : val) : prop (some_object v) "type" = VStr "some".
Proof. reflexivity. Qed.

Lemma some_object_value (v : val) : prop (some_object v) "value" = v.
Proof. reflexivity. Qed.

Lemma None_type : prop None_ "type" = VStr "none".
Proof. reflexivity. Qed.

Lemma Ok_type (v : val) : prop (Ok v) "type" = VStr "ok".
Proof. reflexivity. Qed.

Lemma Ok_value (v : val) : prop (Ok v) "value" = v.
Proof. reflexivity. Qed.



Lemma some_object_not_None (v : val) : some_object v <> None_.
Proof.
  intros H. pose proof (f_equal (fun o => prop o "type") H) as Ht.
  simpl in Ht. rewrite some_object_type, None_type in Ht. discriminate.
Qed.

(** ** Constructors *)

(** C6. [Maybe(v)] writes nothing and never throws; it is [None] exactly
    when [v] is the absent marker ([undefined] or [null]), and for any other
    [v] it is the [Some] that carries [v]. *)
Theorem Maybe_absent_or_some (v : val) (w : world) :
  let o := if is_nullish v then None_ else some_object v in
  Opt.Maybe v w = (Return o, w)
  /\ (o = None_ <-> is_nullish v = true)
  /\ Opt.none o = is_nullish v
  /\ Opt.some o = negb (is_nullish v)
  /\ prop o "value" = (if is_nullish v then VUndefined else v).
Proof.
  cbv zeta. split.
  { unfold Opt.Maybe. destruct (is_nullish v) eqn:N; [done|].
    by apply Some_quiet. }
  destruct (is_nullish v) eqn:N.
  - repeat split; auto.
  - repeat split; auto; try discriminate.
    all: intros H; by apply some_object_not_None in H.
Qed.

(** ** Combinators on the option *)

(** C7. The truth table of [xor]: the one operand that is [Some] when
    exactly one is, [None] otherwise. *)
Theorem xor_truth_table (a b : val) :
  Opt.xor (some_object a) None_ = some_object a
  /\ Opt.xor None_ (some_object b) = some_object b
  /\ Opt.xor (some_object a) (some_object b) = None_
  /\ Opt.xor None_ None_ = None_.
Proof. repeat split. Qed.

(** C8. [opt.okOrElse(() => e)] is [opt.okOr(e)], on every option: [Ok] of
    the payload on [Some], [Err(e)] on [None]. *)
Theorem okOr_okOrElse_agree (opt : obj) (e : val) (w : world) :
  Opt.okOrElse opt (ret e) w = (Return (Opt.okOr opt e), w)
  /\ (forall x, Opt.okOr (some_object x) e = Ok x)
  /\ Opt.okOr None_ e = Err e.
Proof.
  repeat split.
  unfold Opt.okOrElse, Opt.okOr.
  by destruct (eq_str (prop opt "type") "some").
Qed.

(** C2. On [Some(x)], [mapOr] and [mapOrElse] are [Some(fn(x))]; on [None],
    [mapOr] is [Some(v)], the fallback wrapped and not returned raw, and
    [mapOrElse] is [Some(supplier())].  The supplier runs once on [None] and
    has no part in the call on [Some]; the mapper has none on [None]. *)
Theorem mapOr_wraps_fallback
  (x v : val) (fn fn' : val -> M val) (supplier supplier' : M val) :
  Opt.mapOr (some_object x) fn v = (let* y := fn x in Some_ y)
  /\ Opt.mapOr None_ fn v = Some_ v
  /\ (forall w, fst (Opt.mapOr None_ fn v w) = Return (some_object v))
  /\ Opt.mapOrElse (some_object x) fn supplier = (let* y := fn x in Some_ y)
  /\ Opt.mapOrElse None_ fn supplier = (let* y := supplier in Some_ y)
  /\ Opt.mapOrElse (some_object x) fn supplier
     = Opt.mapOrElse (some_object x) fn supplier'
  /\ Opt.mapOrElse None_ fn supplier = Opt.mapOrElse None_ fn' supplier.
Proof.
  repeat split.
  intros w. change (Opt.mapOr None_ fn v) with (Some_ v).
  by rewrite Some_run.
Qed.

(** The supplier of [mapOrElse] counted. *)
Example mapOrElse_supplier_runs :
  heap (snd (Opt.mapOrElse None_ ret (counting_supplier (VNum 10)) w0))
  = [VStr "supplier"]
  /\ heap (snd (Opt.mapOrElse (some_object (VNum 5)) ret
                  (counting_supplier (VNum 10)) w0))
     = [].
Proof. split; reflexivity. Qed.

(** ** The unwrap family *)

(** C5. [expect(m)] on [None] and on [Err] throws the string [m] itself, so
    the failure message is [m] and nothing else; on [Some(v)] and [Ok(v)] it
    returns [v].  The world is left as it was. *)
Theorem expect_message_exact (m : string) (v e : val) (w : world) :
  Opt.expect None_ m w = (Throw (VStr m), w)
  /\ Res.expect (Err e) m w = (Throw (VStr m), w)
  /\ failure_message (VStr m) = Some m
  /\ Opt.expect (some_object v) m w = (Return v, w)
  /\ Res.expect (Ok v) m w = (Return v, w).
Proof. repeat split. Qed.

Section WithHost.

Variable fn_source : lib_fn -> string.


(** [unwrap] called as a conversion of an object is [unwrap] on it. *)
Lemma unwrap_with_to_text (this : obj) :
  Res.unwrap_with (Res.to_text fn_source Res.HDefault <$> this) this
  = Res.unwrap fn_source this.
Proof.
  unfold Res.unwrap_with, Res.unwrap, prop. rewrite lookup_fmap.
  by destruct (this !! "error").
Qed.



(** C4. [Some(v).ok().get().unwrap()] returns [v]; [None().ok()] is
    [Err(undefined)], and [None().ok().fail().unwrap()] returns that same
    [undefined], the error [ok()] made up. *)
Theorem Option_Result_round_trip (v : val) (w : world) :
  fst ((let* s := Some_ v in
        let* o := Res.get (Opt.ok s) in
        Opt.unwrap o) w) = Return v
  /\ Opt.ok None_ = Err VUndefined
  /\ fst ((let* o := Res.fail (Opt.ok None_) in Opt.unwrap o) w)
     = Return (prop (Opt.ok None_) "error")
  /\ fst ((let* o := Res.fail (Opt.ok None_) in Opt.unwrap o) w)
     = Return VUndefined.
Proof.
  repeat split.
  unfold bind. rewrite Some_run. cbv beta iota.
  change (Res.get (Opt.ok (some_object v))) with (Some_ v).
  rewrite Some_run. cbv beta iota.
  change (Opt.unwrap (some_object v)) with (@ret val v).
  reflexivity.
Qed.

End WithHost.


(** The message for that error, written out. *)
Example run_err_unwrap_array :
  quiet (Res.unwrap src0
           (Err (VArr [VNum 1; VNull; VArr [VStr "a"; VNum (-2)];
                       VError "Error" "boom"; VObj {[ "code" := VNum 7 ]}])))
  = Throw (Error ("Called `unwrap()` on an `Err` `Result` value with: "
                  +:+ "1,,a,-2,Error: boom,[object Object]")).
Proof. reflexivity. Qed.

(** [Err({ toString: null }).unwrap()]: the object inherits a [valueOf] that
    returns the object, and its own [toString] cannot be called, so the
    concatenation throws before any message is made. *)
Example unwrap_conversion_throws :
  Res.unwrap src0 (Err (VObj {[ "toString" := VNull ]})) w0
  = (Throw (TypeError "Cannot convert object to primitive value"), w0)
  /\ Res.unwrap src0 (Err (VObj {[ "toString" := VNull; "code" := VNum 7 ]})) w0
     = (Throw (TypeError "Cannot convert object to primitive value"), w0).
Proof. split; reflexivity. Qed.

(** An error that converts itself: the library's own [unwrap] attached as
    [toString] of a [Some] gives the payload of that [Some] as the text. *)
Example unwrap_conversion_runs_method :
  quiet (Res.unwrap src0
           (Err (VObj (<[ "toString" := VFn (OptionFn "unwrap") ]>
                         (some_object (VStr "inner"))))))
  = Throw (Error "Called `unwrap()` on an `Err` `Result` value with: inner").
Proof. reflexivity. Qed.


(** ** Rehydration *)

Lemma optionFactory_union (x : obj) :
  Opt.optionFactory x = createBaseOption ∪ x.
Proof. unfold Opt.optionFactory, assign. by rewrite (right_id_L ∅ (∪)). Qed.

Lemma resultFactory_union (x : obj) :
  Res.resultFactory x = createBaseResult ∪ x.
Proof. unfold Res.resultFactory, assign. by rewrite (right_id_L ∅ (∪)). Qed.

(** A property that is not a combinator goes through rehydration as it is. *)
Lemma optionFactory_keeps (x : obj) (k : string) :
  createBaseOption !! k = None -> prop (Opt.optionFactory x) k = prop x k.
Proof.
  intros H. unfold prop. by rewrite optionFactory_union, lookup_union_r.
Qed.

Lemma resultFactory_keeps (x : obj) (k : string) :
  createBaseResult !! k = None -> prop (Res.resultFactory x) k = prop x k.
Proof.
  intros H. unfold prop. by rewrite resultFactory_union, lookup_union_r.
Qed.

Lemma optionFactory_idem (x : obj) :
  Opt.optionFactory (Opt.optionFactory x) = Opt.optionFactory x.
Proof.
  rewrite !optionFactory_union.
  by rewrite (assoc_L (∪)), (idemp_L (∪) createBaseOption).
Qed.

Lemma resultFactory_idem (x : obj) :
  Res.resultFactory (Res.resultFactory x) = Res.resultFactory x.
Proof.
  rewrite !resultFactory_union.
  by rewrite (assoc_L (∪)), (idemp_L (∪) createBaseResult).
Qed.

(** After rehydration every combinator is attached under its own name,
    whatever the object held there before. *)
Lemma optionFactory_attaches (x : obj) (c : Opt.call) :
  Opt.optionFactory x !! Opt.fn_name c = Some (VFn (OptionFn (Opt.fn_name c))).
Proof.
  rewrite optionFactory_union. apply lookup_union_Some_l.
  destruct c; reflexivity.
Qed.

Lemma resultFactory_attaches (x : obj) (c : Res.call) :
  Res.resultFactory x !! Res.fn_name c = Some (VFn (ResultFn (Res.fn_name c))).
Proof.
  rewrite resultFactory_union. apply lookup_union_Some_l.
  destruct c; reflexivity.
Qed.

(** A bare record, as it comes from an event, has no combinator to call. *)
Example bare_record_has_no_methods :
  ({[ "type" := VStr "some"; "value" := VNum 5 ]} : obj) !! "map" = None
  /\ Opt.optionFactory {[ "type" := VStr "some"; "value" := VNum 5 ]}
     = some_object (VNum 5).
Proof. split; [reflexivity|]. by vm_compute. Qed.

Section Rehydration.

Variable fn_source : lib_fn -> string.

(** C1. [optionFactory(x)] has the tag and the payload of [x] and every
    combinator attached; applying it twice gives the same object as applying
    it once, so every call of a combinator does the same on both.  The same
    holds for [resultFactory], on the tag, the value and the error. *)
Theorem rehydration_idempotent (x : obj) :
  (prop (Opt.optionFactory x) "type" = prop x "type"
   /\ prop (Opt.optionFactory x) "value" = prop x "value"
   /\ Opt.optionFactory (Opt.optionFactory x) = Opt.optionFactory x
   /\ (forall c : Opt.call,
         Opt.optionFactory x !! Opt.fn_name c
         = Some (VFn (OptionFn (Opt.fn_name c))))
   /\ (forall c : Opt.call,
         Opt.apply c (Opt.optionFactory (Opt.optionFactory x))
         = Opt.apply c (Opt.optionFactory x)))
  /\
  (prop (Res.resultFactory x) "type" = prop x "type"
   /\ prop (Res.resultFactory x) "value" = prop x "value"
   /\ prop (Res.resultFactory x) "error" = prop x "error"
   /\ Res.resultFactory (Res.resultFactory x) = Res.resultFactory x
   /\ (forall c : Res.call,
         Res.resultFactory x !! Res.fn_name c
         = Some (VFn (ResultFn (Res.fn_name c))))
   /\ (forall c : Res.call,
         Res.apply fn_source c (Res.resultFactory (Res.resultFactory x))
         = Res.apply fn_source c (Res.resultFactory x))).
Proof.
  split.
  - split; [by apply optionFactory_keeps|].
    split; [by apply optionFactory_keeps|].
    split; [apply optionFactory_idem|].
    split; [apply optionFactory_attaches|].
    intros c. by rewrite optionFactory_idem.
  - split; [by apply resultFactory_keeps|].
    split; [by apply resultFactory_keeps|].
    split; [by apply resultFactory_keeps|].
    split; [apply resultFactory_idem|].
    split; [apply resultFactory_attaches|].
    intros c. by rewrite resultFactory_idem.
Qed.

End Rehydration.

(** ** Tag predicates *)

Lemma is_option_some_object (v : val) : Opt.is_option (some_object v).
Proof. by left. Qed.

Lemma is_option_None : Opt.is_option None_.
Proof. by right. Qed.

Lemma is_result_Ok (v : val) : Res.is_result (Ok v).
Proof. by left. Qed.

Lemma is_result_Err (e : val) : Res.is_result (Err e).
Proof. by right. Qed.

Lemma is_option_optionFactory (x : obj) :
  Opt.is_option x -> Opt.is_option (Opt.optionFactory x).
Proof. unfold Opt.is_option. by rewrite optionFactory_keeps. Qed.

Lemma is_result_resultFactory (x : obj) :
  Res.is_result x -> Res.is_result (Res.resultFactory x).
Proof. unfold Res.is_result. by rewrite resultFactory_keeps. Qed.

(** C10. On every Option value, among them what [Some], [None] and
    [optionFactory] produce, [some()] is the negation of [none()]; on every
    Result value, among them what [Ok], [Err] and [resultFactory] produce,
    [ok()] is the negation of [err()]. *)
Theorem tag_predicates_partition (o r : obj) :
  Opt.is_option o -> Res.is_result r ->
  Opt.some o = negb (Opt.none o)
  /\ Opt.some (Opt.optionFactory o) = negb (Opt.none (Opt.optionFactory o))
  /\ Res.ok r = negb (Res.err r)
  /\ Res.ok (Res.resultFactory r) = negb (Res.err (Res.resultFactory r)).
Proof.
  intros Ho Hr.
  assert (O : forall x, Opt.is_option x -> Opt.some x = negb (Opt.none x)).
  { intros x [H|H]; unfold Opt.some, Opt.none; by rewrite H. }
  assert (R : forall x, Res.is_result x -> Res.ok x = negb (Res.err x)).
  { intros x [H|H]; unfold Res.ok, Res.err; by rewrite H. }
  split; [by apply O|]. split; [by apply O, is_option_optionFactory|].
  split; [by apply R|]. by apply R, is_result_resultFactory.
Qed.

Lemma tag_predicates_partition_witness :
  Opt.some (some_object (VNum 1)) = negb (Opt.none (some_object (VNum 1)))
  /\ Opt.some (Opt.optionFactory (some_object (VNum 1)))
     = negb (Opt.none (Opt.optionFactory (some_object (VNum 1))))
  /\ Res.ok (Err VNull) = negb (Res.err (Err VNull))
  /\ Res.ok (Res.resultFactory (Err VNull))
     = negb (Res.err (Res.resultFactory (Err VNull))).
Proof.
  apply (tag_predicates_partition (some_object (VNum 1)) (Err VNull)).
  - left. reflexivity.
  - right. reflexivity.
Defined.

(** With a tag that is neither, both predicates answer [false]. *)
Example foreign_tag_neither :
  Opt.some (Opt.optionFactory {[ "type" := VStr "ok" ]}) = false
  /\ Opt.none (Opt.optionFactory {[ "type" := VStr "ok" ]}) = false.
Proof. split; reflexivity. Qed.

(** ** Totality *)

Lemma returns_ret {A} (a : A) : returns (ret a).
Proof. intros w. by exists a, w. Qed.

Lemma returns_bind {A B} (m : M A) (k : A -> M B) :
  returns m -> (forall a, returns (k a)) -> returns (bind m k).
Proof.
  intros Hm Hk w. destruct (Hm w) as (a & w1 & E).
  destruct (Hk a w1) as (b & w2 & E2).
  exists b, w2. unfold bind. by rewrite E.
Qed.

Lemma returns_when (c : bool) (s : M unit) : returns s -> returns (when c s).
Proof. intros H. destruct c; [exact H|apply returns_ret]. Qed.

Lemma returns_console_warn (args : list val) : returns (console_warn args).
Proof. intros w. by eexists _, _. Qed.

Lemma returns_Some (v : val) : returns (Some_ v).
Proof. intros w. rewrite Some_run. by eexists _, _. Qed.

Lemma returns_destructure2 (v : val) :
  Opt.iterable v = true -> returns (Opt.destructure2 v).
Proof. destruct v; try discriminate; intros _; apply returns_ret. Qed.

Ltac returns_step :=
  match goal with
  | |- returns (ret _) => apply returns_ret
  | |- returns (Some_ _) => apply returns_Some
  | |- returns (bind _ _) => apply returns_bind; [|intros ?]
  | |- returns (when _ _) => apply returns_when
  | |- returns (if ?b then _ else _) => destruct b eqn:?
  | H : forall v, returns (?f v) |- returns (?f _) => apply H
  | H : returns ?m |- returns ?m => exact H
  | H : _ /\ _ |- _ => destruct H
  end.

Lemma Opt_apply_returns (c : Opt.call) (this : obj) :
  Opt.fallible c = false -> Opt.callbacks_return c -> Opt.unzip_ready c this ->
  returns (Opt.apply c this).
Proof.
  destruct c;
    cbn [Opt.fallible Opt.callbacks_return Opt.unzip_ready Opt.apply];
    intros F CB UZ; try discriminate F;
    unfold Opt.unwrapOrGet, Opt.match_, Opt.map, Opt.mapOr, Opt.flatMap,
      Opt.mapOrElse, Opt.inspect, Opt.okOrElse, Opt.orElse, Opt.filter,
      Opt.zip, Opt.unzip;
    repeat returns_step.
  apply returns_destructure2, UZ. assumption.
Qed.

Section Totality.

Variable fn_source : lib_fn -> string.

Lemma Res_apply_returns (c : Res.call) (this : obj) :
  Res.fallible c = false -> Res.callbacks_return c ->
  returns (Res.apply fn_source c this).
Proof.
  destruct c; cbn [Res.fallible Res.callbacks_return Res.apply];
    intros F CB; try discriminate F;
    unfold Res.get, Res.fail, Res.unwrapOrGet;
    repeat returns_step.
Qed.

(** C9, as amended.  Every operation other than [unwrap] and [expect]
    returns, on every receiver and with callbacks that return, provided
    [unzip] is called the way its signature says: on [None], or on a [Some]
    whose payload can be destructured. *)
Theorem combinators_total
  (c : Opt.call) (rc : Res.call) (this result : obj) (w : world) :
  Opt.fallible c = false -> Opt.callbacks_return c ->
  Opt.unzip_ready c this ->
  Res.fallible rc = false -> Res.callbacks_return rc ->
  (exists v w', Opt.apply c this w = (Return v, w'))
  /\ (exists v w', Res.apply fn_source rc result w = (Return v, w')).
Proof.
  intros F CB UZ RF RCB. split.
  - by apply Opt_apply_returns.
  - by apply Res_apply_returns.
Qed.

End Totality.

Lemma combinators_total_witness :
  (exists v w',
     Opt.apply Opt.call_unzip (some_object (VArr [VNum 5; VStr "hello"])) w0
     = (Return v, w'))
  /\ (exists v w',
        Res.apply src0 (Res.call_unwrapOrGet (counting_supplier VNull))
          (Err (VStr "boom")) w0
        = (Return v, w')).
Proof.
  apply (combinators_total src0 Opt.call_unzip
           (Res.call_unwrapOrGet (counting_supplier VNull))).
  - reflexivity.
  - exact I.
  - intros _. reflexivity.
  - reflexivity.
  - intros w. eexists _, _. reflexivity.
Defined.

(** [Some(5).unzip()]: the payload is not iterable and the call throws. *)
Example unzip_scalar_throws :
  Opt.apply Opt.call_unzip (some_object (VNum 5)) w0
  = (Throw (TypeError "this.value is not iterable"), w0).
Proof. reflexivity. Qed.

(** C9, as stated, fails: [unzip] is neither [unwrap] nor [expect], it takes
    no callback, and on [Some(5)] it throws. *)
Lemma unzip_breaks_totality :
  ~ (forall (c : Opt.call) (this : obj) (w : world),
       Opt.fallible c = false -> Opt.callbacks_return c ->
       exists v w', Opt.apply c this w = (Return v, w')).
Proof.
  intros H.
  destruct (H Opt.call_unzip (some_object (VNum 5)) w0 eq_refl I)
    as (v & w' & E).
  rewrite unzip_scalar_throws in E. discriminate E.
Qed.

(** On a [Some] whose payload cannot be destructured, [unzip] throws in
    every world. *)
Lemma unzip_not_iterable_throws (this : obj) (w : world) :
  Opt.some this = true -> Opt.iterable (prop this "value") = false ->
  exists e, Opt.unzip this w = (Throw e, w).
Proof.
  unfold Opt.some, Opt.unzip. intros -> N.
  destruct (prop this "value"); try discriminate N;
    by eexists.
Qed.

(** * Further properties of the combinators *)

(** ** Mapping *)

Lemma some_as_tag (this : obj) :
  Opt.some this = eq_str (prop this "type") "some".
Proof. reflexivity. Qed.

(** [opt.map(f)] is [opt.flatMap(x => Some(f(x)))], and what it returns has
    the tag of the receiver: a [Some] stays a [Some], anything else becomes
    [None]. *)
Theorem map_is_flatMap_Some
  (this : obj) (f : val -> M val) (w : world) (o : obj) (w' : world) :
  Opt.map this f w = (Return o, w') ->
  Opt.map this f w
  = Opt.flatMap this (fun x => let* y := f x in Some_ y) w
  /\ Opt.some o = Opt.some this
  /\ Opt.is_option o.
Proof.
  unfold Opt.map, Opt.flatMap. rewrite (some_as_tag this).
  destruct (eq_str (prop this "type") "some") eqn:T.
  - unfold bind. destruct (f (prop this "value") w) as [[r|e] w1]; [|discriminate].
    rewrite Some_run. intros [= <- _].
    split; [reflexivity|]. split; [reflexivity|]. by left.
  - intros [= <- _].
    split; [reflexivity|]. split; [reflexivity|]. by right.
Qed.

Lemma map_is_flatMap_Some_witness :
  Opt.map (some_object (VNum 5)) ret w0
  = Opt.flatMap (some_object (VNum 5)) (fun x => let* y := ret x in Some_ y) w0
  /\ Opt.some (some_object (VNum 5)) = Opt.some (some_object (VNum 5))
  /\ Opt.is_option (some_object (VNum 5)).
Proof.
  apply (map_is_flatMap_Some (some_object (VNum 5)) ret w0
           (some_object (VNum 5)) w0).
  reflexivity.
Defined.

(** Mapping twice is mapping once with the two mappers in sequence, as long
    as the first mapper never gives [undefined] or [null]: the [Some] built
    in between would log its warning. *)
Theorem map_fusion
  (this : obj) (f g : val -> M val) (w : world) :
  (forall x w1 r w2, f x w1 = (Return r, w2) -> is_nullish r = false) ->
  (let* m := Opt.map this f in Opt.map m g) w
  = Opt.map this (fun x => let* y := f x in g y) w.
Proof.
  intros Hf. unfold Opt.map at 1 3.
  destruct (eq_str (prop this "type") "some") eqn:T.
  - unfold bind. destruct (f (prop this "value") w) as [[r|e] w1] eqn:E; [|done].
    rewrite (Some_quiet r w1 (Hf _ _ _ _ E)). reflexivity.
  - reflexivity.
Qed.

Lemma map_fusion_witness :
  (let* m := Opt.map (some_object (VNum 5)) (fun _ => ret (VNum 1)) in
   Opt.map m (fun _ => ret VNull)) w0
  = Opt.map (some_object (VNum 5))
      (fun x => let* y := (fun _ => ret (VNum 1)) x in (fun _ => ret VNull) y) w0.
Proof.
  apply (map_fusion (some_object (VNum 5)) (fun _ => ret (VNum 1))
           (fun _ => ret VNull) w0).
  intros x w1 r w2 H. injection H as <- _. reflexivity.
Defined.

(** Without that condition the two sides differ by one console line. *)
Example map_fusion_needs_condition :
  console (snd ((let* m := Opt.map (some_object (VNum 5)) (fun _ => ret VNull) in
                 Opt.map m (fun _ => ret (VNum 1))) w0))
  = [[VStr "Creating an option with an undefined value"; VNull]]
  /\ console (snd (Opt.map (some_object (VNum 5))
                     (fun x => let* y := ret VNull in ret (VNum 1)) w0))
     = [].
Proof. split; reflexivity. Qed.

(** Mapping with the identity gives back what the constructor built. *)
Theorem map_identity (v : val) (w : world) :
  fst (Opt.map (some_object v) ret w) = Return (some_object v)
  /\ Opt.map None_ ret w = (Return None_, w)
  /\ heap (snd (Opt.map (some_object v) ret w)) = heap w.
Proof.
  change (Opt.map (some_object v) ret) with (Some_ v).
  rewrite Some_run. repeat split. by destruct (is_nullish v).
Qed.

(** [flatMap] with the constructors: [Some(v).flatMap(f)] is [f(v)],
    [opt.flatMap(Some)] rebuilds [opt], and chaining two [flatMap]s is one
    [flatMap] with the chained function, on every receiver. *)
Theorem flatMap_laws
  (this : obj) (v : val) (f g : val -> M obj) (w : world) :
  Opt.flatMap (some_object v) f = f v
  /\ Opt.flatMap (some_object v) Some_ = Some_ v
  /\ Opt.flatMap None_ f w = (Return None_, w)
  /\ (let* o := Opt.flatMap this f in Opt.flatMap o g) w
     = Opt.flatMap this (fun x => let* o := f x in Opt.flatMap o g) w.
Proof.
  repeat split.
  unfold Opt.flatMap at 1 3.
  by destruct (eq_str (prop this "type") "some").
Qed.

(** ** Filtering *)

(** With a predicate that only computes, [filter] returns the receiver
    itself or [None], never anything else; the result is a [Some] exactly
    when the receiver is one and its payload passes; and filtering the result
    again changes nothing. *)
Theorem filter_keeps_or_drops (this : obj) (p : val -> bool) (w : world) :
  exists r,
    Opt.filter this (fun x => ret (p x)) w = (Return r, w)
    /\ (r = this \/ r = None_)
    /\ Opt.some r = Opt.some this && p (prop this "value")
    /\ Opt.filter r (fun x => ret (p x)) w = (Return r, w).
Proof.
  unfold Opt.filter at 1. rewrite (some_as_tag this).
  destruct (eq_str (prop this "type") "some") eqn:T.
  - destruct (p (prop this "value")) eqn:P.
    + exists this. unfold bind, ret.
      split; [reflexivity|]. split; [by left|].
      split; [by rewrite some_as_tag, T|].
      unfold Opt.filter, bind. by rewrite T, P.
    + exists None_. unfold bind, ret.
      split; [reflexivity|]. split; [by right|]. split; reflexivity.
  - exists None_.
    split; [reflexivity|]. split; [by right|]. split; reflexivity.
Qed.

(** ** Zipping *)

(** [Some(a).zip(Some(b)).unzip()] is [[Some(a), Some(b)]]; [zip] with an
    empty operand on either side is [None], and [None().unzip()] is
    [[None, None]]. *)
Theorem zip_then_unzip (this : obj) (a b : val) (w : world) :
  fst ((let* z := Opt.zip (some_object a) (some_object b) in Opt.unzip z) w)
  = Return (some_object a, some_object b)
  /\ Opt.zip None_ this w = (Return None_, w)
  /\ Opt.zip this None_ w = (Return None_, w)
  /\ Opt.unzip None_ w = (Return (None_, None_), w).
Proof.
  split; [|split; [reflexivity|split; [|reflexivity]]].
  - change (Opt.zip (some_object a) (some_object b))
      with (Some_ (VArr [a; b])).
    unfold bind at 1. rewrite Some_run. cbv beta iota.
    change (is_nullish (VArr [a; b])) with false. cbv iota.
    change (Opt.unzip (some_object (VArr [a; b])))
      with (let* t := Some_ a in let* u := Some_ b in ret (t, u)).
    unfold bind. rewrite Some_run. cbv beta iota. by rewrite Some_run.
  - unfold Opt.zip.
    destruct (eq_str (prop this "type") "some"); reflexivity.
Qed.

(** The other way round, [unzip] then [zip] gives the first two items of the
    payload back, [undefined] standing for a missing one: the option is
    rebuilt as it was exactly when it held a pair. *)
Theorem unzip_then_zip (items : list val) (a b : val) (w : world) :
  fst ((let* p := Opt.unzip (some_object (VArr items)) in
        Opt.zip (fst p) (snd p)) w)
  = Return (some_object (VArr [nth 0 items VUndefined; nth 1 items VUndefined]))
  /\ fst ((let* p := Opt.unzip (some_object (VArr [a; b])) in
           Opt.zip (fst p) (snd p)) w)
     = Return (some_object (VArr [a; b])).
Proof.
  assert (G : forall l,
    fst ((let* p := Opt.unzip (some_object (VArr l)) in
          Opt.zip (fst p) (snd p)) w)
    = Return (some_object (VArr [nth 0 l VUndefined; nth 1 l VUndefined]))).
  { intros l.
    change (Opt.unzip (some_object (VArr l)))
      with (let* t := Some_ (nth 0 l VUndefined) in
            let* u := Some_ (nth 1 l VUndefined) in ret (t, u)).
    unfold bind. rewrite Some_run. cbv beta iota. rewrite Some_run.
    cbv beta iota. unfold ret, fst at 2, snd at 1.
    change (Opt.zip (some_object (nth 0 l VUndefined))
              (some_object (nth 1 l VUndefined)))
      with (Some_ (VArr [nth 0 l VUndefined; nth 1 l VUndefined])).
    by rewrite Some_run. }
  split; [apply G|apply (G [a; b])].
Qed.

(** ** Choosing between options *)

(** The tag of [and], [or] and [xor] is the conjunction, the disjunction and
    the exclusive disjunction of the operands' tags; for [xor] both operands
    have to be Option values. *)
Theorem and_or_xor_tags (a b : obj) :
  Opt.is_option a -> Opt.is_option b ->
  Opt.some (Opt.and a b) = Opt.some a && Opt.some b
  /\ Opt.some (Opt.or a b) = Opt.some a || Opt.some b
  /\ Opt.some (Opt.xor a b) = xorb (Opt.some a) (Opt.some b).
Proof.
  intros Ha Hb.
  assert (A : (Opt.some a = true /\ Opt.none a = false)
              \/ (Opt.some a = false /\ Opt.none a = true)).
  { unfold Opt.some, Opt.none. destruct Ha as [-> | ->]; auto. }
  assert (B : (Opt.some b = true /\ Opt.none b = false)
              \/ (Opt.some b = false /\ Opt.none b = true)).
  { unfold Opt.some, Opt.none. destruct Hb as [-> | ->]; auto. }
  unfold Opt.and, Opt.or, Opt.xor.
  change (eq_str (prop a "type") "some") with (Opt.some a).
  change (eq_str (prop a "type") "none") with (Opt.none a).
  change (eq_str (prop b "type") "some") with (Opt.some b).
  change (eq_str (prop b "type") "none") with (Opt.none b).
  destruct A as [[Sa Na] | [Sa Na]], B as [[Sb Nb] | [Sb Nb]];
    rewrite ?Sa, ?Na, ?Sb, ?Nb; cbv [andb orb xorb];
    rewrite ?Sa, ?Sb; auto.
Qed.

Lemma and_or_xor_tags_witness :
  Opt.some (Opt.and (some_object (VNum 5)) None_)
  = Opt.some (some_object (VNum 5)) && Opt.some None_
  /\ Opt.some (Opt.or (some_object (VNum 5)) None_)
     = Opt.some (some_object (VNum 5)) || Opt.some None_
  /\ Opt.some (Opt.xor (some_object (VNum 5)) None_)
     = xorb (Opt.some (some_object (VNum 5))) (Opt.some None_).
Proof.
  apply (and_or_xor_tags (some_object (VNum 5)) None_).
  - left. reflexivity.
  - right. reflexivity.
Defined.

(** With an operand whose tag is foreign, [xor] drops a [Some]. *)
Example xor_foreign_operand :
  Opt.xor (some_object (VNum 5)) {[ "type" := VStr "ok" ]} = None_.
Proof. reflexivity. Qed.


(** ** Lazy and eager defaults *)

(** A supplier that only returns a constant makes the lazy variant the eager
    one: [unwrapOrGet] is [unwrapOr], [orElse] is [or], [mapOrElse] is
    [mapOr], on every receiver. *)
Theorem lazy_variants_agree
  (this other : obj) (d : val) (fn : val -> M val) (w : world) :
  Opt.unwrapOrGet this (ret d) w = (Return (Opt.unwrapOr this d), w)
  /\ Opt.orElse this (ret other) w = (Return (Opt.or this other), w)
  /\ Opt.mapOrElse this fn (ret d) w = Opt.mapOr this fn d w
  /\ Res.unwrapOrGet this (ret d) w = (Return (Res.unwrapOr this d), w).
Proof.
  unfold Opt.unwrapOrGet, Opt.unwrapOr, Opt.orElse, Opt.or, Opt.mapOrElse,
    Opt.mapOr, Res.unwrapOrGet, Res.unwrapOr.
  destruct (eq_str (prop this "type") "some"),
    (eq_str (prop this "type") "ok"); repeat split.
Qed.

(** ** Between Result and Option *)

(** On a Result value exactly one of [get()] and [fail()] is a [Some]:
    [get()] carries the value of an [Ok], [fail()] the error of an [Err]. *)
Theorem get_fail_complementary (r : obj) (w : world) :
  Res.is_result r ->
  let g := if Res.ok r then some_object (prop r "value") else None_ in
  let f := if Res.err r then some_object (prop r "error") else None_ in
  fst (Res.get r w) = Return g
  /\ fst (Res.fail r w) = Return f
  /\ Opt.some g = negb (Opt.some f).
Proof.
  intros H. unfold Res.get, Res.fail, Res.ok, Res.err.
  destruct H as [-> | ->];
    change (eq_str (VStr "ok") "ok") with true;
    change (eq_str (VStr "ok") "err") with false;
    change (eq_str (VStr "err") "ok") with false;
    change (eq_str (VStr "err") "err") with true;
    cbv iota zeta; rewrite Some_run; repeat split.
Qed.

Lemma get_fail_complementary_witness :
  let r := Err (VStr "boom") in
  let g := if Res.ok r then some_object (prop r "value") else None_ in
  let f := if Res.err r then some_object (prop r "error") else None_ in
  fst (Res.get r w0) = Return g
  /\ fst (Res.fail r w0) = Return f
  /\ Opt.some g = negb (Opt.some f).
Proof.
  apply (get_fail_complementary (Err (VStr "boom")) w0).
  right. reflexivity.
Defined.

(** Result to Option and back: an [Ok] comes back as it was, an [Err] comes
    back with its error replaced, by [undefined] through [ok()] and by the
    given error through [okOr]. *)
Theorem Result_Option_Result (v e e' : val) (w : world) :
  fst ((let* o := Res.get (Ok v) in ret (Opt.ok o)) w) = Return (Ok v)
  /\ fst ((let* o := Res.get (Ok v) in ret (Opt.okOr o e')) w) = Return (Ok v)
  /\ (let* o := Res.get (Err e) in ret (Opt.ok o)) w
     = (Return (Err VUndefined), w)
  /\ (let* o := Res.get (Err e) in ret (Opt.okOr o e')) w
     = (Return (Err e'), w).
Proof.
  change (Res.get (Ok v)) with (Some_ v).
  unfold bind. rewrite Some_run. repeat split.
Qed.

(** Option to Result and back: [okOr] then [get()] gives the option back,
    and on [None] the error given to [okOr] is what [fail()] carries. *)
Theorem Option_Result_Option (v e : val) (w : world) :
  fst (Res.get (Opt.okOr (some_object v) e) w) = Return (some_object v)
  /\ Res.fail (Opt.okOr (some_object v) e) w = (Return None_, w)
  /\ Res.get (Opt.okOr None_ e) w = (Return None_, w)
  /\ fst (Res.fail (Opt.okOr None_ e) w) = Return (some_object e).
Proof.
  change (Res.get (Opt.okOr (some_object v) e)) with (Some_ v).
  change (Res.fail (Opt.okOr None_ e)) with (Some_ e).
  rewrite !Some_run. repeat split.
Qed.

(** The defaults of a Result are those of the option [get()] projects it
    to, and [expect] fails or returns alike on both. *)
Theorem Result_defaults_through_get (r : obj) (d : val) (m : string) (w : world) :
  fst ((let* o := Res.get r in ret (Opt.unwrapOr o d)) w)
  = Return (Res.unwrapOr r d)
  /\ fst ((let* o := Res.get r in Opt.expect o m) w) = fst (Res.expect r m w).
Proof.
  unfold Res.get, Res.unwrapOr, Res.expect.
  destruct (eq_str (prop r "type") "ok").
  - unfold bind. rewrite Some_run. split; reflexivity.
  - split; reflexivity.
Qed.

(** ** Failures *)

(** What a mapper throws on the payload of a [Some] is what [map], [mapOr],
    [mapOrElse] and [match] throw, in the world the mapper left: nothing is
    caught and no option is built. *)
Theorem mapper_failure_propagates
  (this : obj) (f : val -> M val) (d : val) (s n : M val) (e : val)
  (w w' : world) :
  Opt.some this = true ->
  f (prop this "value") w = (Throw e, w') ->
  Opt.map this f w = (Throw e, w')
  /\ Opt.mapOr this f d w = (Throw e, w')
  /\ Opt.mapOrElse this f s w = (Throw e, w')
  /\ Opt.match_ this (Opt.Matcher f n) w = (Throw e, w').
Proof.
  unfold Opt.some, Opt.map, Opt.mapOr, Opt.mapOrElse, Opt.match_.
  intros -> E. unfold bind. cbn [Opt.matcher_some]. rewrite E.
  repeat split.
Qed.

Lemma mapper_failure_propagates_witness :
  Opt.map (some_object (VNum 5)) throw w0 = (Throw (VNum 5), w0)
  /\ Opt.mapOr (some_object (VNum 5)) throw VNull w0 = (Throw (VNum 5), w0)
  /\ Opt.mapOrElse (some_object (VNum 5)) throw (ret VNull) w0
     = (Throw (VNum 5), w0)
  /\ Opt.match_ (some_object (VNum 5)) (Opt.Matcher throw (ret VNull)) w0
     = (Throw (VNum 5), w0).
Proof.
  apply (mapper_failure_propagates (some_object (VNum 5)) throw VNull
           (ret VNull) (ret VNull) (VNum 5) w0 w0).
  - reflexivity.
  - reflexivity.
Defined.

(** When [unwrap()] returns, the receiver is a [Some], the world is as it
    was, and [unwrapOr], [unwrapOrGet], [expect] and [match] give the same
    payload without touching their default, supplier, message or [none]
    arm. *)
Theorem unwrap_returns_the_payload
  (this : obj) (v d : val) (s n : M val) (m : string) (w w' : world) :
  Opt.unwrap this w = (Return v, w') ->
  w' = w
  /\ Opt.some this = true
  /\ v = prop this "value"
  /\ Opt.unwrapOr this d = v
  /\ Opt.unwrapOrGet this s w = (Return v, w)
  /\ Opt.expect this m w = (Return v, w)
  /\ Opt.match_ this (Opt.Matcher ret n) w = (Return v, w).
Proof.
  unfold Opt.unwrap, Opt.some, Opt.unwrapOr, Opt.unwrapOrGet, Opt.expect,
    Opt.match_.
  destruct (eq_str (prop this "type") "some"); [|discriminate].
  intros [= <- <-]. repeat split.
Qed.

Lemma unwrap_returns_the_payload_witness :
  w0 = w0
  /\ Opt.some (some_object (VNum 5)) = true
  /\ VNum 5 = prop (some_object (VNum 5)) "value"
  /\ Opt.unwrapOr (some_object (VNum 5)) VNull = VNum 5
  /\ Opt.unwrapOrGet (some_object (VNum 5)) (throw VNull) w0
     = (Return (VNum 5), w0)
  /\ Opt.expect (some_object (VNum 5)) "no value" w0 = (Return (VNum 5), w0)
  /\ Opt.match_ (some_object (VNum 5)) (Opt.Matcher ret (throw VNull)) w0
     = (Return (VNum 5), w0).
Proof.
  apply (unwrap_returns_the_payload (some_object (VNum 5)) (VNum 5) VNull
           (throw VNull) (throw VNull) "no value" w0 w0).
  reflexivity.
Defined.

(** On a receiver whose tag is a primitive value other than the string
    ['some'] (no tag at all, [null], a number, another string), [unwrap()]
    throws its fixed message, which says nothing of the receiver, and
    [expect] throws the caller's; the world is as it was.  A tag that is an
    object is left out: [==] converts it before comparing. *)
Theorem unwrap_fails_off_Some (this : obj) (m : string) (w : world) :
  primitive (prop this "type") = true ->
  Opt.some this = false ->
  Opt.unwrap this w
  = (Throw (Error "Called `unwrap()` on a `None` `Option` value"), w)
  /\ Opt.expect this m w = (Throw (VStr m), w)
  /\ Opt.unwrap this w = Opt.unwrap None_ w.
Proof.
  unfold Opt.some, Opt.unwrap at 1 2, Opt.expect. intros _ ->. repeat split.
Qed.

Lemma unwrap_fails_off_Some_witness :
  Opt.unwrap {[ "type" := VStr "err" ]} w0
  = (Throw (Error "Called `unwrap()` on a `None` `Option` value"), w0)
  /\ Opt.expect {[ "type" := VStr "err" ]} "no value" w0
     = (Throw (VStr "no value"), w0)
  /\ Opt.unwrap {[ "type" := VStr "err" ]} w0 = Opt.unwrap None_ w0.
Proof.
  apply (unwrap_fails_off_Some {[ "type" := VStr "err" ]} "no value" w0).
  - reflexivity.
  - reflexivity.
Defined.

(** ** Rehydration of bare records *)

(** A record that holds only the tag and the payload is rehydrated into what
    the constructor builds, for both families; what a constructor built is
    left as it is; and a combinator property that held something else is
    put right. *)
Theorem rehydration_rebuilds (v e junk : val) :
  Opt.optionFactory {[ "type" := VStr "some"; "value" := v ]} = some_object v
  /\ Opt.optionFactory {[ "type" := VStr "none" ]} = None_
  /\ Res.resultFactory {[ "type" := VStr "ok"; "value" := v ]} = Ok v
  /\ Res.resultFactory {[ "type" := VStr "err"; "error" := e ]} = Err e
  /\ Opt.optionFactory (some_object v) = some_object v
  /\ Opt.optionFactory None_ = None_
  /\ Opt.optionFactory (<[ "map" := junk ]> (some_object v)) = some_object v.
Proof. repeat split; by vm_compute. Qed.

(** ** The console and the heap *)

(** [Some] takes [undefined] and [null] as payloads: it builds the [Some],
    from which [unwrap()] gives the payload back, and writes one warning;
    [Maybe] makes a [None] of the same payload. *)
Theorem Some_accepts_nullish (v : val) (w : world) :
  is_nullish v = true ->
  Some_ v w
  = (Return (some_object v),
     World (console w ++ [[VStr "Creating an option with an undefined value"; v]])
           (heap w))
  /\ Opt.some (some_object v) = true
  /\ Opt.unwrap (some_object v) w = (Return v, w)
  /\ Opt.Maybe v w = (Return None_, w).
Proof.
  intros N. rewrite Some_run. unfold Opt.Maybe. rewrite N. repeat split.
Qed.

Lemma Some_accepts_nullish_witness :
  Some_ VNull w0
  = (Return (some_object VNull),
     World (console w0 ++ [[VStr "Creating an option with an undefined value"; VNull]])
           (heap w0))
  /\ Opt.some (some_object VNull) = true
  /\ Opt.unwrap (some_object VNull) w0 = (Return VNull, w0)
  /\ Opt.Maybe VNull w0 = (Return None_, w0).
Proof.
  apply (Some_accepts_nullish VNull w0). reflexivity.
Defined.

Lemma only_warns_ret {A} (a : A) : only_warns (ret a).
Proof.
  intros w. split; [done|]. exists []. by rewrite app_nil_r.
Qed.

Lemma only_warns_throw {A} (e : val) : only_warns (@throw A e).
Proof.
  intros w. split; [done|]. exists []. by rewrite app_nil_r.
Qed.

Lemma only_warns_bind {A B} (m : M A) (k : A -> M B) :
  only_warns m -> (forall a, only_warns (k a)) -> only_warns (bind m k).
Proof.
  intros Hm Hk w. unfold bind.
  destruct (Hm w) as (Hh & extra & Hc & Hw).
  destruct (m w) as [[a|e] w1]; simpl in *.
  - destruct (Hk a w1) as (Hh2 & extra2 & Hc2 & Hw2).
    split; [congruence|]. exists (extra ++ extra2)%list.
    rewrite Hc2, Hc, <- (assoc_L (++)). split; [done|]. by apply Forall_app.
  - split; [done|]. by exists extra.
Qed.

Lemma only_warns_Some (v : val) : only_warns (Some_ v).
Proof.
  intros w. rewrite Some_run. destruct (is_nullish v) eqn:N; simpl.
  - split; [done|]. eexists. split; [done|].
    constructor; [by exists v|constructor].
  - split; [done|]. exists []. by rewrite app_nil_r.
Qed.

Lemma only_warns_destructure2 (v : val) : only_warns (Opt.destructure2 v).
Proof. destruct v; first [apply only_warns_ret | apply only_warns_throw]. Qed.

Ltac only_warns_step :=
  match goal with
  | |- only_warns (ret _) => apply only_warns_ret
  | |- only_warns (throw _) => apply only_warns_throw
  | |- only_warns (Some_ _) => apply only_warns_Some
  | |- only_warns (Opt.destructure2 _) => apply only_warns_destructure2
  | |- only_warns (bind _ _) => apply only_warns_bind; [|intros ?]
  | |- only_warns (if ?b then _ else _) => destruct b
  end.

(** A call that takes no callback leaves the caller's state as it is, and
    adds to the console nothing but the warnings of [Some], after the lines
    that were there; this holds when the call throws too. *)
Theorem library_only_warns (c : Opt.call) (this : obj) (w : world) :
  callback_free c = true ->
  heap (snd (Opt.apply c this w)) = heap w
  /\ exists extra,
       console (snd (Opt.apply c this w)) = (console w ++ extra)%list
       /\ Forall is_warning extra.
Proof.
  intros F. revert w. change (only_warns (Opt.apply c this)).
  destruct c; try discriminate F; cbn [Opt.apply];
    unfold Opt.unwrap, Opt.expect, Opt.zip, Opt.unzip;
    repeat only_warns_step.
Qed.

Lemma library_only_warns_witness :
  heap (snd (Opt.apply Opt.call_unzip (some_object (VArr [VNum 5])) w0))
  = heap w0
  /\ exists extra,
       console (snd (Opt.apply Opt.call_unzip (some_object (VArr [VNum 5])) w0))
       = (console w0 ++ extra)%list
       /\ Forall is_warning extra.
Proof.
  apply (library_only_warns Opt.call_unzip (some_object (VArr [VNum 5])) w0).
  reflexivity.
Defined.

(** [inspect] returns the receiver itself when it returns.  On a [Some] it
    has run the callback once on the payload and the world is the one the
    callback left; on anything else the world is as it was and the callback
    has no part in the call. *)
Theorem inspect_returns_receiver
  (this : obj) (callback callback' : val -> M unit) (w : world)
  (o : obj) (w' : world) :
  Opt.inspect this callback w = (Return o, w') ->
  o = this
  /\ (if Opt.some this
      then callback (prop this "value") w = (Return tt, w')
      else w' = w /\ Opt.inspect this callback' w = (Return this, w)).
Proof.
  unfold Opt.inspect, Opt.some, bind, when.
  destruct (eq_str (prop this "type") "some").
  - destruct (callback (prop this "value") w) as [[[]|e] w1]; [|discriminate].
    by intros [= <- <-].
  - by intros [= <- <-].
Qed.

Lemma inspect_returns_receiver_witness :
  some_object (VNum 5) = some_object (VNum 5)
  /\ (if Opt.some (some_object (VNum 5))
      then recording_callback (prop (some_object (VNum 5)) "value") w0
           = (Return tt, World [] [VNum 5])
      else World [] [VNum 5] = w0
           /\ Opt.inspect (some_object (VNum 5)) (fun _ => throw VNull) w0
              = (Return (some_object (VNum 5)), w0)).
Proof.
  apply (inspect_returns_receiver (some_object (VNum 5)) recording_callback
           (fun _ => throw VNull) w0 (some_object (VNum 5))
           (World [] [VNum 5])).
  reflexivity.
Defined.
